(** * Microscopy-AI-Agent-Demo: the viewer and the toolbar interlock

    A shallow embedding of [app/static/js/script.js].  The script is a set of
    event listeners over a few DOM elements and one THREE.js scene; each
    listener body is embedded as a computation in a small state-and-exception
    monad over a record [Page] that holds exactly the mutable things the
    listeners touch.

    The script is one file, and it declares [const aiToggle], [const statusDot]
    and [const statusText] at top level twice (lines 31-33 and lines 53-55).
    Redeclaring a lexical binding is an early error: the file is rejected
    before any statement runs, so no listener is installed and no function is
    defined.  The embedding therefore has two layers: the listener bodies as
    they are written, and the page as the script leaves it, where [handle]
    hands an event to a listener only if the script was evaluated
    ([script_runs]). *)

From Stdlib Require Import String Ascii List Bool Arith Lia.
Import ListNotations.
Local Open Scope string_scope.

(** ** Values that cross the browser boundary *)

(** A [File] of the file input: its name and its bytes. *)
Record File := mkFile { name : string; contents : string }.

(** What [URL.createObjectURL] hands out: one blob URL per call. *)
Inductive Url := BlobUrl (n : nat).

(** The objects that are ever added to the scene: the ambient light of line 8
    and the [gltf.scene] roots the loader decodes (each identified by a
    number). *)
Inductive Object3D := light | Model (id : nat).

(** The result handed to the success callback of [GLTFLoader.load].  Its
    [scene] is the default scene of the decoded asset, and is [undefined] for
    an asset that holds no scene. *)
Record GLTF := mkGLTF { scene_id : option nat }.

Definition gltf_scene (gltf : GLTF) : option Object3D :=
  option_map Model (scene_id gltf).

Definition Object3D_eqb (a b : Object3D) : bool :=
  match a, b with
  | light, light => true
  | Model i, Model j => Nat.eqb i j
  | _, _ => false
  end.

Definition isModel (o : Object3D) : bool :=
  match o with Model _ => true | light => false end.

Definition isLight (o : Object3D) : bool :=
  match o with light => true | Model _ => false end.

(** Arguments printed by [console.*]. *)
Inductive JSValue :=
| VStr (s : string)
| VNull
| VErr (e : string).

Inductive Level := LOG | WARN | ERROR.

Record ConsoleEntry := mkEntry { level : Level; args : list JSValue }.

Inductive Exn :=
| TypeError (msg : string)
| ReferenceError (msg : string).

(** ** The page *)

Record Page := mkPage {
  (* viewer *)
  scene_children : list Object3D;       (* scene.children *)
  blobs : list File;                    (* files registered by createObjectURL *)
  loader_requests : list Url;           (* GLTFLoader.load calls issued *)
  raf_callbacks : nat;                  (* pending requestAnimationFrame(animate) *)
  renders : nat;                        (* renderer.render(scene, camera) calls *)
  (* toolbar and interlock *)
  aiToggle_checked : bool;              (* aiToggle.checked *)
  statusDot_className : string;         (* statusDot.className *)
  statusText_textContent : string;      (* statusText.textContent *)
  modeIndicator_textContent : string;   (* modeIndicator.textContent *)
  (* what the user and the console see *)
  alerts : list string;                 (* alert(...) dialogs, oldest first *)
  console : list ConsoleEntry           (* the script's console.* calls, oldest first *)
}.

(** ** Handlers as computations *)

Inductive Outcome (A : Type) :=
| Done (a : A) (p : Page)
| Uncaught (e : Exn) (p : Page).
Arguments Done {A} a p.
Arguments Uncaught {A} e p.

Definition JS (A : Type) : Type := Page -> Outcome A.

Definition ret {A} (a : A) : JS A := fun p => Done a p.

Definition bind {A B} (m : JS A) (k : A -> JS B) : JS B :=
  fun p =>
    match m p with
    | Done a p' => k a p'
    | Uncaught e p' => Uncaught e p'
    end.

Definition throw {A} (e : Exn) : JS A := fun p => Uncaught e p.

Definition gets {A} (f : Page -> A) : JS A := fun p => Done (f p) p.

Definition modify (f : Page -> Page) : JS unit := fun p => Done tt (f p).

Declare Scope js_scope.
Delimit Scope js_scope with js.
Notation "x <- m ;; k" := (bind m (fun x => k))
  (at level 61, m at next level, right associativity) : js_scope.
Notation "m ;; k" := (bind m (fun _ => k))
  (at level 61, right associativity) : js_scope.
Local Open Scope js_scope.

(** The page a handler leaves behind, whether it finished or threw. *)
Definition page_of {A} (o : Outcome A) : Page :=
  match o with Done _ p => p | Uncaught _ p => p end.

Definition completes {A} (o : Outcome A) : bool :=
  match o with Done _ _ => true | Uncaught _ _ => false end.

(** ** Field updates *)

Definition with_scene_children (v : list Object3D) (p : Page) : Page :=
  mkPage v (blobs p) (loader_requests p) (raf_callbacks p) (renders p)
         (aiToggle_checked p) (statusDot_className p) (statusText_textContent p)
         (modeIndicator_textContent p) (alerts p) (console p).

Definition with_blobs (v : list File) (p : Page) : Page :=
  mkPage (scene_children p) v (loader_requests p) (raf_callbacks p) (renders p)
         (aiToggle_checked p) (statusDot_className p) (statusText_textContent p)
         (modeIndicator_textContent p) (alerts p) (console p).

Definition with_loader_requests (v : list Url) (p : Page) : Page :=
  mkPage (scene_children p) (blobs p) v (raf_callbacks p) (renders p)
         (aiToggle_checked p) (statusDot_className p) (statusText_textContent p)
         (modeIndicator_textContent p) (alerts p) (console p).

Definition with_raf_callbacks (v : nat) (p : Page) : Page :=
  mkPage (scene_children p) (blobs p) (loader_requests p) v (renders p)
         (aiToggle_checked p) (statusDot_className p) (statusText_textContent p)
         (modeIndicator_textContent p) (alerts p) (console p).

Definition with_renders (v : nat) (p : Page) : Page :=
  mkPage (scene_children p) (blobs p) (loader_requests p) (raf_callbacks p) v
         (aiToggle_checked p) (statusDot_className p) (statusText_textContent p)
         (modeIndicator_textContent p) (alerts p) (console p).

Definition with_aiToggle_checked (v : bool) (p : Page) : Page :=
  mkPage (scene_children p) (blobs p) (loader_requests p) (raf_callbacks p) (renders p)
         v (statusDot_className p) (statusText_textContent p)
         (modeIndicator_textContent p) (alerts p) (console p).

Definition with_statusDot_className (v : string) (p : Page) : Page :=
  mkPage (scene_children p) (blobs p) (loader_requests p) (raf_callbacks p) (renders p)
         (aiToggle_checked p) v (statusText_textContent p)
         (modeIndicator_textContent p) (alerts p) (console p).

Definition with_statusText_textContent (v : string) (p : Page) : Page :=
  mkPage (scene_children p) (blobs p) (loader_requests p) (raf_callbacks p) (renders p)
         (aiToggle_checked p) (statusDot_className p) v
         (modeIndicator_textContent p) (alerts p) (console p).

Definition with_modeIndicator_textContent (v : string) (p : Page) : Page :=
  mkPage (scene_children p) (blobs p) (loader_requests p) (raf_callbacks p) (renders p)
         (aiToggle_checked p) (statusDot_className p) (statusText_textContent p)
         v (alerts p) (console p).

Definition with_alerts (v : list string) (p : Page) : Page :=
  mkPage (scene_children p) (blobs p) (loader_requests p) (raf_callbacks p) (renders p)
         (aiToggle_checked p) (statusDot_className p) (statusText_textContent p)
         (modeIndicator_textContent p) v (console p).

Definition with_console (v : list ConsoleEntry) (p : Page) : Page :=
  mkPage (scene_children p) (blobs p) (loader_requests p) (raf_callbacks p) (renders p)
         (aiToggle_checked p) (statusDot_className p) (statusText_textContent p)
         (modeIndicator_textContent p) (alerts p) v.

(** ** Browser and library primitives *)

(** [alert(msg)]: one modal notice shown to the user. *)
Definition alert (msg : string) : JS unit :=
  modify (fun p => with_alerts (alerts p ++ [msg]) p).

Definition console_emit (l : Level) (vs : list JSValue) : JS unit :=
  modify (fun p => with_console (console p ++ [mkEntry l vs]) p).

Definition console_log := console_emit LOG.
Definition console_warn := console_emit WARN.
Definition console_error := console_emit ERROR.

(** [String.prototype.endsWith(search)] with the default end position:
    [start = len - searchLength]; false when [start < 0]; otherwise the code
    units from [start] on are compared with [search]. *)
Definition endsWith (s search : string) : bool :=
  let len := String.length s in
  let searchLength := String.length search in
  if Nat.leb searchLength len
  then String.eqb (substring (len - searchLength) searchLength s) search
  else false.

(** [e.target.files[0]]: indexing past the end of a FileList gives
    [undefined]. *)
Definition files_0 (files : list File) : option File := nth_error files 0.

(** [URL.createObjectURL(obj)].  [undefined] is not a Blob: the call throws a
    TypeError.  For a file it registers the file and returns a new blob URL. *)
Definition URL_createObjectURL (obj : option File) : JS Url :=
  match obj with
  | None => throw (TypeError "URL.createObjectURL: argument is not a Blob")
  | Some f =>
      n <- gets (fun p => List.length (blobs p)) ;;
      modify (fun p => with_blobs (blobs p ++ [f]) p) ;;
      ret (BlobUrl n)
  end.

(** [file.name]: reading a property of [undefined] throws a TypeError. *)
Definition get_name (file : option File) : JS string :=
  match file with
  | None => throw (TypeError "Cannot read properties of undefined (reading 'name')")
  | Some f => ret (name f)
  end.

(** Modelled from the spec: the rendering library (THREE.js) is not under the
    sources; the spec gives it "a scene graph with add/clear operations".
    [clear] removes every child. *)
Definition Scene_clear : JS unit :=
  modify (with_scene_children []).

Definition remove_child (o : Object3D) (cs : list Object3D) : list Object3D :=
  filter (fun c => negb (Object3D_eqb c o)) cs.

(** Modelled from the spec: [add] of the same scene graph.  An object has one
    parent: adding it detaches it from where it was and appends it as the last
    child. *)
Definition Scene_add (o : Object3D) : JS unit :=
  modify (fun p => with_scene_children (remove_child o (scene_children p) ++ [o]) p).

(** [scene.add(v)] for a value that may be [undefined]: only an Object3D is
    added; for [undefined] the children stay as they are. *)
Definition Scene_add_value (v : option Object3D) : JS unit :=
  match v with
  | Some o => Scene_add o
  | None => ret tt
  end.

(** Modelled from the spec: the external loader "decode[s] a model file at a
    URL into a scene subtree asynchronously, reporting success or failure".
    [load] only records the request; the outcome arrives later as one call of
    the success callback or of the error callback. *)
Definition GLTFLoader_load (url : Url) : JS unit :=
  modify (fun p => with_loader_requests (loader_requests p ++ [url]) p).

(** [requestAnimationFrame(animate)]: one more pending frame callback. *)
Definition requestAnimationFrame_animate : JS unit :=
  modify (fun p => with_raf_callbacks (S (raf_callbacks p)) p).

(** [renderer.render(scene, camera)]. *)
Definition renderer_render : JS unit :=
  modify (fun p => with_renders (S (renders p)) p).

(** ** Viewer (script.js, lines 12-30) *)

(** [animate()], lines 27-30: schedules itself for the next frame and renders
    the scene once. *)
Definition animate : JS unit :=
  requestAnimationFrame_animate ;;
  renderer_render.

(** The success callback of [loader.load], lines 18-23. *)
Definition onLoad (gltf : GLTF) : JS unit :=
  Scene_clear ;;
  Scene_add light ;;
  Scene_add_value (gltf_scene gltf) ;;
  animate.

(** The error callback of [loader.load], line 23. *)
Definition onError (err : string) : JS unit :=
  console_error [VStr "Load error:"; VErr err].

(** The [change] listener of [#file-selector], lines 12-25.  [files] is
    [e.target.files]. *)
Definition file_selector_onchange (files : list File) : JS unit :=
  let file := files_0 files in
  url <- URL_createObjectURL file ;;
  file_name <- get_name file ;;
  if endsWith file_name ".glb" || endsWith file_name ".gltf"
  then GLTFLoader_load url
  else ret tt.

(** ** Interlock checkbox (lines 31-51) *)

(** The [change] listener of [#ai-shutoff], lines 35-44. *)
Definition aiToggle_onchange : JS unit :=
  checked <- gets aiToggle_checked ;;
  if checked
  then
    modify (with_statusDot_className "status-dot error") ;;
    modify (with_statusText_textContent "AI: DISABLED") ;;
    console_warn [VStr "AI shutoff engaged — hardware commands blocked."]
  else
    modify (with_statusDot_className "status-dot idle") ;;
    modify (with_statusText_textContent "AI: IDLE").

(** [setAIRunning()], lines 46-51. *)
Definition setAIRunning : JS unit :=
  checked <- gets aiToggle_checked ;;
  if negb checked
  then
    modify (with_statusDot_className "status-dot running") ;;
    modify (with_statusText_textContent "AI: RUNNING")
  else ret tt.

(** ** Toolbar (lines 52-116) *)

(** [setStatus(state, text)], lines 59-62. *)
Definition setStatus (state text : string) : JS unit :=
  modify (with_statusDot_className ("status-dot " ++ state)) ;;
  modify (with_statusText_textContent ("AI: " ++ text)).

(** [setMode(mode)], lines 64-67. *)
Definition setMode (mode : string) : JS unit :=
  modify (with_modeIndicator_textContent ("MODE: " ++ mode)) ;;
  console_log [VStr ("Switched to " ++ mode)].

(** [btn.getAttribute("title")] is a string, or [null] when the button has no
    title; a [case] label is matched with strict equality. *)
Definition case_ (action : option string) (label : string) : bool :=
  match action with
  | Some a => String.eqb a label
  | None => false
  end.

Definition JSValue_of_attr (action : option string) : JSValue :=
  match action with
  | Some a => VStr a
  | None => VNull
  end.

(** The [click] listener of a [.tool-btn], lines 70-115; [action] is the
    button's title attribute.  Nothing follows the [switch], so [return] and
    [break] both end the handler. *)
Definition toolButton_onclick (action : option string) : JS unit :=
  if case_ action "Settings" then
    setMode "SETTINGS" ;;
    alert "Settings panel coming soon"
  else if case_ action "AI Tools" then
    checked <- gets aiToggle_checked ;;
    if checked
    then alert "AI is disabled by shutoff switch."
    else
      setMode "AI TOOL SELECTION" ;;
      setStatus "idle" "READY"
  else if case_ action "Graphs / Analysis" then
    setMode "ANALYSIS" ;;
    setStatus "idle" "IDLE"
  else if case_ action "Captured Images" then
    setMode "IMAGE REVIEW"
  else if case_ action "Human TEM Control" then
    modify (with_aiToggle_checked true) ;;
    setMode "HUMAN CONTROL" ;;
    setStatus "error" "DISABLED"
  else if case_ action "Automated TEM" then
    checked <- gets aiToggle_checked ;;
    if checked
    then alert "Disable AI shutoff to enable automation."
    else
      setMode "AUTOMATED TEM" ;;
      setStatus "running" "RUNNING"
  else
    console_warn [VStr "Unknown toolbar action:"; JSValue_of_attr action].

(** ** The script as a whole *)

(** The top-level items of script.js: [const] declarations, function
    declarations and plain statements. *)
Inductive TopLevel :=
| Const (x : string)
| FunctionDecl (f : string)
| Statement.

(** script.js, item by item, each with the line it starts on. *)
Definition script_js : list (nat * TopLevel) :=
  [ (1, Const "scene"); (2, Const "container"); (3, Const "camera");
    (4, Const "renderer"); (5, Statement); (6, Statement);
    (8, Const "light"); (9, Statement); (10, Statement);
    (12, Statement);
    (27, FunctionDecl "animate");
    (31, Const "aiToggle"); (32, Const "statusDot"); (33, Const "statusText");
    (35, Statement);
    (46, FunctionDecl "setAIRunning");
    (52, Const "modeIndicator");
    (53, Const "aiToggle"); (54, Const "statusDot"); (55, Const "statusText");
    (57, Const "toolButtons");
    (59, FunctionDecl "setStatus");
    (64, FunctionDecl "setMode");
    (69, Statement) ].

Definition LexicallyDeclaredNames (s : list (nat * TopLevel)) : list string :=
  flat_map (fun item => match snd item with Const x => [x] | _ => [] end) s.

(** At the top level of a script a function declaration counts as a [var]
    declaration. *)
Definition VarDeclaredNames (s : list (nat * TopLevel)) : list string :=
  flat_map (fun item => match snd item with FunctionDecl f => [f] | _ => [] end) s.

(** The names of a list that occur again later in it. *)
Fixpoint redeclared (names : list string) : list string :=
  match names with
  | [] => []
  | x :: rest =>
      (if existsb (String.eqb x) rest then [x] else []) ++ redeclared rest
  end.

(** The early errors of a script: a lexically declared name that is declared
    twice, or that is also declared by [var] or by a function. *)
Definition early_errors (s : list (nat * TopLevel)) : list string :=
  redeclared (LexicallyDeclaredNames s)
  ++ filter (fun x => existsb (String.eqb x) (VarDeclaredNames s))
            (LexicallyDeclaredNames s).

(** A script with an early error is not evaluated: none of its statements
    runs.  [script_runs] says whether script.js is evaluated. *)
Definition script_runs : bool :=
  match early_errors script_js with
  | [] => true
  | _ :: _ => false
  end.

(** ** Events *)

(** What the browser and the loader can deliver to the page.  Flipping the
    checkbox stores the new value in [aiToggle.checked] whether or not a
    [change] listener exists; a frame callback runs only if one is pending. *)
Inductive Event :=
| FileSelected (files : list File)
| LoadSucceeded (gltf : GLTF)
| LoadFailed (err : string)
| AnimationFrame
| ToggleFlipped (checked : bool)
| ToolClicked (title : option string).

(** [handle installed ev]: what the page does on [ev].  [installed] says
    whether the script was evaluated, so that its listeners and callbacks
    exist; for the page as it is, [installed] is [script_runs].  Without the
    listeners only the checkbox itself reacts. *)
Definition handle (installed : bool) (ev : Event) : JS unit :=
  if installed then
    match ev with
    | FileSelected files => file_selector_onchange files
    | LoadSucceeded gltf => onLoad gltf
    | LoadFailed err => onError err
    | AnimationFrame =>
        n <- gets raf_callbacks ;;
        match n with
        | O => ret tt
        | S n' => modify (with_raf_callbacks n') ;; animate
        end
    | ToggleFlipped checked =>
        modify (with_aiToggle_checked checked) ;;
        aiToggle_onchange
    | ToolClicked title => toolButton_onclick title
    end
  else
    match ev with
    | ToggleFlipped checked => modify (with_aiToggle_checked checked)
    | _ => ret tt
    end.

(** One event is handled to completion before the next; an uncaught exception
    ends its handler and the page stays as the handler left it. *)
Definition dispatch (installed : bool) (ev : Event) (p : Page) : Page :=
  page_of (handle installed ev p).

Definition run (installed : bool) (evs : list Event) (p : Page) : Page :=
  fold_left (fun q ev => dispatch installed ev q) evs p.


(** ** The state of the specification, read off the page *)

Inductive StatusTag := idle | running | error.

Definition tag_name (t : StatusTag) : string :=
  match t with
  | idle => "idle"
  | running => "running"
  | error => "error"
  end.

(** [strip_prefix pre s] is the rest of [s] after [pre], if [s] starts with
    [pre]. *)
Fixpoint strip_prefix (pre s : string) : option string :=
  match pre, s with
  | EmptyString, _ => Some s
  | String a pre', String b s' =>
      if Ascii.eqb a b then strip_prefix pre' s' else None
  | String _ _, EmptyString => None
  end.

Definition tag_of_name (n : string) : option StatusTag :=
  if String.eqb n "idle" then Some idle
  else if String.eqb n "running" then Some running
  else if String.eqb n "error" then Some error
  else None.

(** [disabled]: the interlock flag. *)
Definition disabled (p : Page) : bool := aiToggle_checked p.

(** [mode]: the label shown after "MODE: ". *)
Definition mode (p : Page) : option string :=
  strip_prefix "MODE: " (modeIndicator_textContent p).

(** [statusState]: the tag carried by the class of the status dot. *)
Definition statusState (p : Page) : option StatusTag :=
  match strip_prefix "status-dot " (statusDot_className p) with
  | Some n => tag_of_name n
  | None => None
  end.

(** The text of the status indicator as [setStatus] receives it: what is
    displayed after "AI: ". *)
Definition statusLabel (p : Page) : option string :=
  strip_prefix "AI: " (statusText_textContent p).

(** The status indicator as a (state tag, text) pair. *)
Definition status (p : Page) : option (StatusTag * string) :=
  match statusState p, statusLabel p with
  | Some t, Some l => Some (t, l)
  | _, _ => None
  end.

(** The fixed closed set of toolbar labels. *)
Definition toolbar_labels : list string :=
  ["Settings"; "AI Tools"; "Graphs / Analysis"; "Captured Images";
   "Human TEM Control"; "Automated TEM"].

(** The recognised 3D-model extensions. *)
Definition recognized (file_name : string) : bool :=
  endsWith file_name ".glb" || endsWith file_name ".gltf".

(** "[s] ends in [suffix]", as a proposition. *)
Definition ends_in (s suffix : string) : Prop := exists pre, s = pre ++ suffix.

(** Number of ambient lights and of asset subtrees among the scene's children. *)
Definition lights (p : Page) : nat := List.length (filter isLight (scene_children p)).
Definition assets (p : Page) : list Object3D := filter isModel (scene_children p).

(** ** Sample pages and files used to instantiate the theorems *)

Definition page0 : Page :=
  mkPage [light] [] [] 0 0 false "status-dot idle" "AI: IDLE" "MODE: IDLE" [] [].

Definition page_engaged : Page :=
  mkPage [light; Model 7] [] [] 1 1 true "status-dot error" "AI: DISABLED"
         "MODE: ANALYSIS" [] [].

(** The page once the document is loaded and script.js has been rejected: no
    scene content, nothing registered, the checkbox unchecked and the
    indicators idle; and the same page after the user has checked the box. *)
Definition page_loaded : Page :=
  mkPage [] [] [] 0 0 false "status-dot idle" "AI: IDLE" "MODE: IDLE" [] [].

Definition page_checked : Page := with_aiToggle_checked true page_loaded.

Definition model_glb : File := mkFile "model.glb" "glTF".
Definition model_txt : File := mkFile "model.txt" "hello".

(** ** Reading event sequences *)

(** The one event that unchecks the interlock checkbox. *)
Definition releases (ev : Event) : bool :=
  match ev with ToggleFlipped false => true | _ => false end.


(** The classes the status dot can carry: one per state tag. *)
Definition status_classes : list string :=
  map (fun t => "status-dot " ++ tag_name t) [idle; running; error].

(** The events of the viewer: selections, load results and frames. *)
Definition is_viewer_event (ev : Event) : bool :=
  match ev with
  | ToggleFlipped _ | ToolClicked _ => false
  | _ => true
  end.

(** The mode names the toolbar can show. *)
Definition mode_names : list string :=
  ["SETTINGS"; "AI TOOL SELECTION"; "ANALYSIS"; "IMAGE REVIEW";
   "HUMAN CONTROL"; "AUTOMATED TEM"].

(** The part of the page that the toolbar displays. *)
Definition display (p : Page) : bool * string * string * string :=
  (aiToggle_checked p, statusDot_className p, statusText_textContent p,
   modeIndicator_textContent p).

(** * Properties *)

(** ** Strings *)

Lemma length_append (a b : string) :
  String.length (a ++ b) = String.length a + String.length b.
Proof.
  induction a as [|c a IH]; cbn; [reflexivity | now rewrite IH].
Qed.

Lemma substring_whole (s : string) : substring 0 (String.length s) s = s.
Proof.
  induction s as [|c s IH]; cbn; [reflexivity | now rewrite IH].
Qed.

Lemma substring_skip (pre s : string) (m : nat) :
  substring (String.length pre) m (pre ++ s) = substring 0 m s.
Proof.
  induction pre as [|c pre IH]; cbn; [reflexivity | exact IH].
Qed.

Lemma substring_split (s : string) :
  forall k, k <= String.length s ->
  substring 0 k s ++ substring k (String.length s - k) s = s.
Proof.
  induction s as [|c s IH]; intros [|k] Hk; cbn in *.
  - reflexivity.
  - lia.
  - now rewrite substring_whole.
  - f_equal. apply IH. lia.
Qed.

(** [endsWith] decides "ends in". *)
Lemma endsWith_iff (s suffix : string) :
  endsWith s suffix = true <-> ends_in s suffix.
Proof.
  unfold endsWith, ends_in. split.
  - destruct (Nat.leb_spec (String.length suffix) (String.length s)) as [Hle|Hlt];
      [|discriminate].
    intros Heq. apply String.eqb_eq in Heq.
    exists (substring 0 (String.length s - String.length suffix) s).
    assert (Hs := substring_split s (String.length s - String.length suffix)
                    (Nat.le_sub_l _ _)).
    replace (String.length s - (String.length s - String.length suffix))
      with (String.length suffix) in Hs by lia.
    rewrite Heq in Hs. symmetry. exact Hs.
  - intros [pre ->]. rewrite length_append.
    replace (Nat.leb (String.length suffix) (String.length pre + String.length suffix))
      with true by (symmetry; apply Nat.leb_le; lia).
    replace (String.length pre + String.length suffix - String.length suffix)
      with (String.length pre) by lia.
    rewrite substring_skip, substring_whole. apply String.eqb_refl.
Qed.

Lemma endsWith_false (s suffix : string) :
  ~ ends_in s suffix -> endsWith s suffix = false.
Proof.
  intros H. destruct (endsWith s suffix) eqn:E; [|reflexivity].
  apply endsWith_iff in E. contradiction.
Qed.

Lemma not_ends_in_by_endsWith (s suffix : string) :
  endsWith s suffix = false -> ~ ends_in s suffix.
Proof.
  intros E H. apply endsWith_iff in H. congruence.
Qed.

Lemma recognized_iff (n : string) :
  recognized n = true <-> ends_in n ".glb" \/ ends_in n ".gltf".
Proof.
  unfold recognized. rewrite orb_true_iff, !endsWith_iff. reflexivity.
Qed.

(** The match is case-sensitive, and the extension has to be the very end of
    the name. *)
Example recognized_examples :
  recognized "model.glb" = true /\ recognized "scene.gltf" = true /\
  recognized "model.GLB" = false /\ recognized "model.txt" = false /\
  recognized "model.glb.bak" = false /\ recognized "glb" = false /\
  recognized ".glb" = true.
Proof. repeat split; reflexivity. Qed.

Lemma case_false (action : option string) (label : string) :
  action <> Some label -> case_ action label = false.
Proof.
  destruct action as [a|]; cbn; [|reflexivity].
  intros H. apply String.eqb_neq. congruence.
Qed.

(** ** The listener bodies as written

    What each listener and helper does when it runs.  These lemmas are about
    the bodies of the functions; whether they ever run on the page is settled
    further down. *)

(** The click listener, with the interlock engaged ([disabled = true]), a click on "AI Tools"
    or on "Automated TEM" finishes with the page changed in one place only:
    exactly one [alert] notice is appended.  In particular the mode, the
    status tag and the status text are as before, and nothing is logged. *)
Lemma gated_action_rejected_when_disabled (p : Page) (action : string) :
  disabled p = true ->
  action = "AI Tools" \/ action = "Automated TEM" ->
  let p' := page_of (toolButton_onclick (Some action) p) in
  (exists notice,
     toolButton_onclick (Some action) p
       = Done tt (with_alerts (alerts p ++ [notice]) p)
     /\ alerts p' = (alerts p ++ [notice])%list) /\
  modeIndicator_textContent p' = modeIndicator_textContent p /\
  mode p' = mode p /\
  statusDot_className p' = statusDot_className p /\
  statusState p' = statusState p /\
  statusText_textContent p' = statusText_textContent p /\
  disabled p' = true /\
  console p' = console p.
Proof.
  unfold disabled. intros Hd [-> | ->]; cbn zeta;
    unfold toolButton_onclick, bind, gets; cbn [case_ String.eqb Ascii.eqb Bool.eqb];
    rewrite Hd; cbn; (split; [eexists; split; reflexivity|]);
    unfold mode, statusState; cbn; rewrite ?Hd; repeat split.
Qed.

Lemma gated_action_rejected_when_disabled_witness :
  (exists notice, alerts (page_of (toolButton_onclick (Some "Automated TEM") page_engaged))
                  = (alerts page_engaged ++ [notice])%list) /\
  mode (page_of (toolButton_onclick (Some "Automated TEM") page_engaged)) = Some "ANALYSIS" /\
  statusState (page_of (toolButton_onclick (Some "Automated TEM") page_engaged)) = Some error.
Proof.
  destruct (gated_action_rejected_when_disabled page_engaged "Automated TEM"
              eq_refl (or_intror eq_refl))
    as [[notice [_ Ha]] [_ [Hm [_ [Hs _]]]]].
  split; [exists notice; exact Ha|].
  split; [rewrite Hm | rewrite Hs]; reflexivity.
Defined.

(** The click listener, from any page: the case "Human TEM
    Control" finishes with the interlock engaged, the mode set to
    "HUMAN CONTROL" (displayed as "MODE: HUMAN CONTROL") and the status
    indicator set to tag [error] with text "DISABLED" (displayed as
    "AI: DISABLED"). *)
Lemma human_control_engages_interlock (p : Page) :
  let p' := page_of (toolButton_onclick (Some "Human TEM Control") p) in
  completes (toolButton_onclick (Some "Human TEM Control") p) = true /\
  disabled p' = true /\
  mode p' = Some "HUMAN CONTROL" /\
  modeIndicator_textContent p' = "MODE: HUMAN CONTROL" /\
  status p' = Some (error, "DISABLED") /\
  statusDot_className p' = "status-dot error" /\
  statusText_textContent p' = "AI: DISABLED".
Proof.
  cbn. repeat split.
Qed.

(** The change listener: flipping the interlock checkbox to checked leaves the status tag
    [error] and the status text "AI: DISABLED"; flipping it to unchecked leaves
    the tag [idle] and the text "AI: IDLE".  Both hold from any page, and the
    mode indicator is not touched. *)
Lemma toggle_sets_status (p : Page) :
  (let p' := dispatch true (ToggleFlipped true) p in
   completes (handle true (ToggleFlipped true) p) = true /\
   disabled p' = true /\
   statusState p' = Some error /\
   statusDot_className p' = "status-dot error" /\
   statusText_textContent p' = "AI: DISABLED" /\
   modeIndicator_textContent p' = modeIndicator_textContent p /\
   mode p' = mode p) /\
  (let p' := dispatch true (ToggleFlipped false) p in
   completes (handle true (ToggleFlipped false) p) = true /\
   disabled p' = false /\
   statusState p' = Some idle /\
   statusDot_className p' = "status-dot idle" /\
   statusText_textContent p' = "AI: IDLE" /\
   modeIndicator_textContent p' = modeIndicator_textContent p /\
   mode p' = mode p).
Proof.
  cbn. repeat split.
Qed.

(** The body of [setAIRunning] writes the status indicator (tag [running], text
    "RUNNING", displayed as "AI: RUNNING") exactly when the interlock is not
    engaged, and then touches nothing else; when the interlock is engaged it
    returns the page as it was. *)
Lemma setAIRunning_guarded (p : Page) :
  setAIRunning p
    = Done tt (if disabled p then p
               else with_statusText_textContent "AI: RUNNING"
                      (with_statusDot_className "status-dot running" p)) /\
  (disabled p = false ->
     let p' := page_of (setAIRunning p) in
     status p' = Some (running, "RUNNING") /\
     statusDot_className p' = "status-dot running" /\
     statusText_textContent p' = "AI: RUNNING" /\
     disabled p' = false /\
     modeIndicator_textContent p' = modeIndicator_textContent p /\
     alerts p' = alerts p /\ console p' = console p /\
     scene_children p' = scene_children p) /\
  (disabled p = true -> setAIRunning p = Done tt p) /\
  (setAIRunning p <> Done tt p -> disabled p = false).
Proof.
  unfold disabled, setAIRunning, bind, gets.
  destruct (aiToggle_checked p) eqn:Hc; cbn.
  - repeat split; try discriminate.
    intros H. exfalso. apply H. reflexivity.
  - repeat split; [assumption | discriminate].
Qed.

Lemma setAIRunning_guarded_witness :
  status (page_of (setAIRunning page0)) = Some (running, "RUNNING") /\
  setAIRunning page_engaged = Done tt page_engaged.
Proof.
  destruct (setAIRunning_guarded page0) as [_ [H0 _]].
  destruct (setAIRunning_guarded page_engaged) as [_ [_ [H1 _]]].
  split.
  - exact (proj1 (H0 eq_refl)).
  - exact (H1 eq_refl).
Defined.

(** The click listener, with the interlock engaged: "Settings", "Graphs / Analysis",
    "Captured Images" and "Human TEM Control" are not rejected: each click
    finishes and performs its own update of mode and status, and none of them
    shows a rejection notice ("Settings" shows its "coming soon" notice). *)
Lemma ungated_actions_succeed_when_disabled (p : Page) :
  disabled p = true ->
  (let o := toolButton_onclick (Some "Settings") p in
   completes o = true /\
   mode (page_of o) = Some "SETTINGS" /\
   modeIndicator_textContent (page_of o) = "MODE: SETTINGS" /\
   alerts (page_of o) = (alerts p ++ ["Settings panel coming soon"])%list /\
   statusDot_className (page_of o) = statusDot_className p /\
   statusText_textContent (page_of o) = statusText_textContent p /\
   disabled (page_of o) = true) /\
  (let o := toolButton_onclick (Some "Graphs / Analysis") p in
   completes o = true /\
   mode (page_of o) = Some "ANALYSIS" /\
   modeIndicator_textContent (page_of o) = "MODE: ANALYSIS" /\
   status (page_of o) = Some (idle, "IDLE") /\
   statusDot_className (page_of o) = "status-dot idle" /\
   statusText_textContent (page_of o) = "AI: IDLE" /\
   alerts (page_of o) = alerts p /\
   disabled (page_of o) = true) /\
  (let o := toolButton_onclick (Some "Captured Images") p in
   completes o = true /\
   mode (page_of o) = Some "IMAGE REVIEW" /\
   modeIndicator_textContent (page_of o) = "MODE: IMAGE REVIEW" /\
   statusDot_className (page_of o) = statusDot_className p /\
   statusText_textContent (page_of o) = statusText_textContent p /\
   alerts (page_of o) = alerts p /\
   disabled (page_of o) = true) /\
  (let o := toolButton_onclick (Some "Human TEM Control") p in
   completes o = true /\
   mode (page_of o) = Some "HUMAN CONTROL" /\
   modeIndicator_textContent (page_of o) = "MODE: HUMAN CONTROL" /\
   status (page_of o) = Some (error, "DISABLED") /\
   statusDot_className (page_of o) = "status-dot error" /\
   statusText_textContent (page_of o) = "AI: DISABLED" /\
   alerts (page_of o) = alerts p /\
   disabled (page_of o) = true).
Proof.
  unfold disabled. intros Hd. cbn. rewrite Hd. repeat split.
Qed.

Lemma ungated_actions_succeed_when_disabled_witness :
  mode (page_of (toolButton_onclick (Some "Graphs / Analysis") page_engaged))
    = Some "ANALYSIS" /\
  status (page_of (toolButton_onclick (Some "Graphs / Analysis") page_engaged))
    = Some (idle, "IDLE") /\
  mode (page_of (toolButton_onclick (Some "Captured Images") page_engaged))
    = Some "IMAGE REVIEW".
Proof.
  destruct (ungated_actions_succeed_when_disabled page_engaged eq_refl)
    as [_ [[_ [Hm [_ [Hs _]]]] [[_ [Hi _]] _]]].
  exact (conj Hm (conj Hs Hi)).
Defined.

(** The click listener on a title that is none of the six labels: a click whose title is none of the six toolbar labels (a missing
    title included) finishes with the page changed in one place only: exactly
    one warning is appended to the console.  The interlock, the mode, the
    status tag and the status text are as before, and no notice is shown. *)
Lemma unrecognized_action_only_warns (p : Page) (action : option string) :
  (forall l, In l toolbar_labels -> action <> Some l) ->
  let p' := page_of (toolButton_onclick action p) in
  toolButton_onclick action p
    = Done tt (with_console
                 (console p ++ [mkEntry WARN [VStr "Unknown toolbar action:";
                                              JSValue_of_attr action]]) p) /\
  disabled p' = disabled p /\
  modeIndicator_textContent p' = modeIndicator_textContent p /\
  mode p' = mode p /\
  statusDot_className p' = statusDot_className p /\
  statusState p' = statusState p /\
  statusText_textContent p' = statusText_textContent p /\
  alerts p' = alerts p /\
  (exists w, console p' = (console p ++ [w])%list /\ level w = WARN).
Proof.
  intros H. cbn zeta.
  assert (E : toolButton_onclick action p
    = Done tt (with_console
                 (console p ++ [mkEntry WARN [VStr "Unknown toolbar action:";
                                              JSValue_of_attr action]]) p)).
  { unfold toolButton_onclick.
    rewrite !case_false by (apply H; cbn; tauto). reflexivity. }
  rewrite E. cbn. repeat split. eexists; split; reflexivity.
Qed.

Lemma unrecognized_action_only_warns_witness :
  toolButton_onclick (Some "Help") page0
    = Done tt (with_console [mkEntry WARN [VStr "Unknown toolbar action:"; VStr "Help"]]
                            page0) /\
  toolButton_onclick None page_engaged
    = Done tt (with_console [mkEntry WARN [VStr "Unknown toolbar action:"; VNull]]
                            page_engaged).
Proof.
  split.
  - apply (unrecognized_action_only_warns page0 (Some "Help")).
    cbn. intros l Hl. repeat (destruct Hl as [<- | Hl]; [discriminate|]). contradiction.
  - apply (unrecognized_action_only_warns page_engaged None).
    intros l _. discriminate.
Defined.

(** ** Viewer *)

(** Selecting a non-empty list of files: the first one is registered as a
    blob, and the loader is called exactly when its name is recognised. *)
Lemma file_selector_onchange_cons (f : File) (fs : list File) (p : Page) :
  file_selector_onchange (f :: fs) p
    = Done tt (if recognized (name f)
               then with_loader_requests
                      (loader_requests p ++ [BlobUrl (List.length (blobs p))])
                      (with_blobs (blobs p ++ [f]) p)
               else with_blobs (blobs p ++ [f]) p).
Proof.
  unfold file_selector_onchange, recognized. cbn.
  destruct (endsWith (name f) ".glb" || endsWith (name f) ".gltf"); reflexivity.
Qed.

Lemma file_selector_onchange_scene (files : list File) (p : Page) :
  scene_children (page_of (file_selector_onchange files p)) = scene_children p.
Proof.
  destruct files as [|f fs]; [reflexivity|].
  rewrite file_selector_onchange_cons.
  destruct (recognized (name f)); reflexivity.
Qed.

Lemma onLoad_scene (gltf : GLTF) (q : Page) :
  onLoad gltf q
    = Done tt (with_renders (S (renders q))
                 (with_raf_callbacks (S (raf_callbacks q))
                    (with_scene_children
                       (light :: match gltf_scene gltf with
                                 | Some o => [o]
                                 | None => []
                                 end) q))).
Proof. destruct gltf as [[g|]]; reflexivity. Qed.

(** The selection listener and the success callback.  Selecting a file whose
    name ends in ".glb" or ".gltf" calls the loader once and leaves the scene
    alone; the success callback, given a result that carries a scene, leaves
    the scene with exactly two children: the ambient light and the decoded
    subtree. *)
Lemma load_success_replaces_scene
    (p : Page) (f : File) (fs : list File) (gltf : GLTF) (g : nat) :
  ends_in (name f) ".glb" \/ ends_in (name f) ".gltf" ->
  scene_id gltf = Some g ->
  exists p1 url,
    file_selector_onchange (f :: fs) p = Done tt p1 /\
    loader_requests p1 = (loader_requests p ++ [url])%list /\
    scene_children p1 = scene_children p /\
    forall q : Page,
      let q' := page_of (onLoad gltf q) in
      completes (onLoad gltf q) = true /\
      scene_children q' = [light; Model g] /\
      lights q' = 1 /\
      assets q' = [Model g] /\
      (forall o, In o (assets q) -> o <> Model g -> ~ In o (scene_children q')).
Proof.
  intros Hrec Hg. apply recognized_iff in Hrec.
  eexists. exists (BlobUrl (List.length (blobs p))).
  split; [rewrite file_selector_onchange_cons, Hrec; reflexivity|].
  split; [reflexivity|]. split; [reflexivity|].
  intros q. rewrite onLoad_scene. unfold gltf_scene. rewrite Hg. cbn. repeat split.
  intros o Ho Hne [<- | [<- | []]].
  - unfold assets in Ho. apply filter_In in Ho. destruct Ho as [_ Ho]. discriminate.
  - apply Hne. reflexivity.
Qed.

(** The success callback passes [gltf.scene] to [scene.add] without looking
    at it: for a result without a scene the scene ends with the light alone,
    the earlier asset removed and none added. *)
Lemma onLoad_without_scene (q : Page) :
  scene_children (page_of (onLoad (mkGLTF None) q)) = [light] /\
  assets (page_of (onLoad (mkGLTF None) q)) = [].
Proof. split; reflexivity. Qed.

(** The error callback and the selection listener: when the decode fails, the error callback appends exactly one
    [console.error] entry carrying the error and changes nothing else; the
    selection handler does not touch the scene either, so after a selection
    followed by the failure the scene is the one from before the selection. *)
Lemma load_failure_keeps_scene (p : Page) (files : list File) (err : string) :
  (forall q : Page,
     onError err q
       = Done tt (with_console
                    (console q ++ [mkEntry ERROR [VStr "Load error:"; VErr err]]) q)) /\
  (forall q : Page, scene_children (page_of (onError err q)) = scene_children q) /\
  scene_children (page_of (file_selector_onchange files p)) = scene_children p /\
  scene_children (run true [FileSelected files; LoadFailed err] p) = scene_children p /\
  console (run true [FileSelected files; LoadFailed err] p)
    = (console p ++ [mkEntry ERROR [VStr "Load error:"; VErr err]])%list.
Proof.
  split; [reflexivity|]. split; [reflexivity|].
  split; [apply file_selector_onchange_scene|].
  cbn -[file_selector_onchange].
  split; [apply file_selector_onchange_scene|].
  f_equal. unfold dispatch, handle. destruct files as [|f fs]; [reflexivity|].
  rewrite file_selector_onchange_cons.
  destruct (recognized (name f)); reflexivity.
Qed.

(** ** The selection listener's input *)

(** C7. Selecting a file whose name ends neither in ".glb" nor in ".gltf"
    finishes without touching the scene and without calling the loader: the
    only change to the page is the blob registered by [createObjectURL].
    The comparison is exact, so ".GLB" is not a recognised ending. *)
Theorem other_extension_ignored (p : Page) (f : File) (fs : list File) :
  ~ ends_in (name f) ".glb" ->
  ~ ends_in (name f) ".gltf" ->
  let p' := page_of (file_selector_onchange (f :: fs) p) in
  file_selector_onchange (f :: fs) p = Done tt (with_blobs (blobs p ++ [f]) p) /\
  scene_children p' = scene_children p /\
  loader_requests p' = loader_requests p /\
  raf_callbacks p' = raf_callbacks p /\
  renders p' = renders p /\
  console p' = console p /\
  alerts p' = alerts p.
Proof.
  intros H1 H2. cbn zeta. rewrite file_selector_onchange_cons.
  unfold recognized. rewrite (endsWith_false _ _ H1), (endsWith_false _ _ H2).
  cbn. repeat split.
Qed.

Lemma other_extension_ignored_witness :
  scene_children (page_of (file_selector_onchange [model_txt] page_engaged))
    = [light; Model 7] /\
  loader_requests (page_of (file_selector_onchange [model_txt] page_engaged)) = [] /\
  loader_requests
    (page_of (file_selector_onchange [mkFile "MODEL.GLB" ""] page0)) = [].
Proof.
  destruct (other_extension_ignored page_engaged model_txt []
              (not_ends_in_by_endsWith "model.txt" ".glb" eq_refl)
              (not_ends_in_by_endsWith "model.txt" ".gltf" eq_refl))
    as [_ [Hs [Hl _]]].
  destruct (other_extension_ignored page0 (mkFile "MODEL.GLB" "") []
              (not_ends_in_by_endsWith "MODEL.GLB" ".glb" eq_refl)
              (not_ends_in_by_endsWith "MODEL.GLB" ".gltf" eq_refl))
    as [_ [_ [Hl0 _]]].
  exact (conj Hs (conj Hl (Hl0))).
Defined.

(** C10. The selection handler reads [files[0]] and uses it before it looks
    at any extension.  It finishes exactly when the file list is not empty:
    on an empty list it ends in an uncaught TypeError with the page untouched,
    and the read of the first file's name has no guard (on its own it throws
    on an empty list too). *)
Theorem file_selector_total_iff_nonempty (p : Page) (files : list File) :
  (completes (file_selector_onchange files p) = true <-> files <> []) /\
  (exists e, file_selector_onchange [] p = Uncaught e p) /\
  (exists e, get_name (files_0 []) p = Uncaught e p) /\
  (forall f fs, exists p', file_selector_onchange (f :: fs) p = Done tt p').
Proof.
  split; [|split; [|split]].
  - destruct files as [|f fs].
    + cbn. split; [discriminate | intros H; now contradiction H].
    + rewrite file_selector_onchange_cons. cbn. split; [discriminate | reflexivity].
  - eexists. reflexivity.
  - eexists. reflexivity.
  - intros f fs. rewrite file_selector_onchange_cons. eexists. reflexivity.
Qed.

(** * The page as the script leaves it *)

(** ** The early error *)







(** ** What the actions do on the page *)

(** C1. On the page as the script leaves it, a click on "AI Tools" or on
    "Automated TEM" changes nothing at all: in particular it shows no notice,
    also when the interlock checkbox is checked (the listener that would
    reject the click was never installed). *)
Theorem gated_click_shows_no_notice (p : Page) (action : string) :
  dispatch script_runs (ToolClicked (Some action)) p = p /\
  alerts (dispatch script_runs (ToolClicked (Some action)) p) = alerts p /\
  disabled page_checked = true /\
  alerts (dispatch script_runs (ToolClicked (Some "AI Tools")) page_checked) = [] /\
  alerts (dispatch script_runs (ToolClicked (Some "Automated TEM")) page_checked) = [].
Proof. repeat split. Qed.

(** C2. On the page as the script leaves it, a click on "Human TEM Control"
    changes nothing: the checkbox, the mode and the status stay as they were
    (on [page_loaded]: unchecked, "MODE: IDLE", "status-dot idle" /
    "AI: IDLE"). *)
Theorem human_control_click_does_nothing (p : Page) :
  let q := dispatch script_runs (ToolClicked (Some "Human TEM Control")) p in
  q = p /\
  disabled q = disabled p /\
  mode q = mode p /\
  status q = status p /\
  disabled (dispatch script_runs (ToolClicked (Some "Human TEM Control")) page_loaded) = false /\
  mode (dispatch script_runs (ToolClicked (Some "Human TEM Control")) page_loaded)
    = Some "IDLE" /\
  status (dispatch script_runs (ToolClicked (Some "Human TEM Control")) page_loaded)
    = Some (idle, "IDLE").
Proof. cbn zeta. repeat split. Qed.

(** C3. On the page as the script leaves it, flipping the checkbox changes
    the checkbox and nothing else: the status dot and the status text stay as
    they were (on [page_loaded], after checking the box: checked, with
    "status-dot idle" / "AI: IDLE"). *)
Theorem toggle_leaves_status (p : Page) (b : bool) :
  let q := dispatch script_runs (ToggleFlipped b) p in
  q = with_aiToggle_checked b p /\
  disabled q = b /\
  statusDot_className q = statusDot_className p /\
  statusText_textContent q = statusText_textContent p /\
  statusState q = statusState p /\
  disabled (dispatch script_runs (ToggleFlipped true) page_loaded) = true /\
  statusState (dispatch script_runs (ToggleFlipped true) page_loaded) = Some idle /\
  statusText_textContent (dispatch script_runs (ToggleFlipped true) page_loaded) = "AI: IDLE".
Proof. cbn zeta. repeat split. Qed.


(** C5. On the page as the script leaves it, selecting a model file and the
    decode succeeding leave the page as it was: the loader is not called and
    the scene gets neither a light nor an asset (on [page_loaded] it stays
    empty).  And the success callback as written, given a decode result
    without a scene, leaves the light alone and no asset. *)
Theorem load_success_changes_nothing (p : Page) (files : list File) (gltf : GLTF) :
  run script_runs [FileSelected files; LoadSucceeded gltf] p = p /\
  loader_requests (dispatch script_runs (FileSelected files) p) = loader_requests p /\
  lights (run script_runs [FileSelected [model_glb]; LoadSucceeded (mkGLTF (Some 8))]
              page_loaded) = 0 /\
  assets (run script_runs [FileSelected [model_glb]; LoadSucceeded (mkGLTF (Some 8))]
              page_loaded) = [] /\
  assets (page_of (onLoad (mkGLTF None) p)) = [].
Proof. repeat split. Qed.


(** C8. On the page as the script leaves it, with the checkbox checked, a
    click on "Settings", "Graphs / Analysis", "Captured Images" or
    "Human TEM Control" changes neither the mode nor the status (on
    [page_checked], "Graphs / Analysis" leaves "MODE: IDLE"). *)
Theorem ungated_click_does_nothing (p : Page) (action : string) :
  let q := dispatch script_runs (ToolClicked (Some action)) p in
  q = p /\
  modeIndicator_textContent q = modeIndicator_textContent p /\
  mode q = mode p /\
  status q = status p /\
  alerts q = alerts p /\
  disabled page_checked = true /\
  mode (dispatch script_runs (ToolClicked (Some "Graphs / Analysis")) page_checked)
    = Some "IDLE".
Proof. cbn zeta. repeat split. Qed.

(** C9. On the page as the script leaves it, a click on a button whose title
    is none of the six labels logs nothing: the console stays as it was. *)
Theorem unknown_click_logs_nothing (p : Page) (action : option string) :
  dispatch script_runs (ToolClicked action) p = p /\
  console (dispatch script_runs (ToolClicked action) p) = console p /\
  console (dispatch script_runs (ToolClicked (Some "Help")) page_loaded) = [].
Proof. repeat split. Qed.

(** * Properties of the page with or without the listeners *)

(** ** Shared steps *)

Lemma run_app (installed : bool) (a b : list Event) (p : Page) :
  run installed (a ++ b) p = run installed b (run installed a p).
Proof. unfold run. apply fold_left_app. Qed.

Lemma run_snoc (installed : bool) (evs : list Event) (ev : Event) (p : Page) :
  run installed (evs ++ [ev]) p = dispatch installed ev (run installed evs p).
Proof. rewrite run_app. reflexivity. Qed.

Lemma statusState_of_class (p : Page) :
  In (statusDot_className p) status_classes -> exists t, statusState p = Some t.
Proof.
  unfold statusState. cbn. intros [<- | [<- | [<- | []]]]; eexists; reflexivity.
Qed.

(** Splits a click into the seven branches of the [switch], and the gated
    branches by the checkbox. *)
Ltac click_cases title p :=
  unfold toolButton_onclick, bind, gets;
  repeat match goal with
         | |- context [case_ title ?l] => destruct (case_ title l)
         end;
  try destruct (aiToggle_checked p) eqn:?.

Lemma dispatch_keeps_engaged (installed : bool) (ev : Event) (p : Page) :
  releases ev = false -> aiToggle_checked p = true ->
  aiToggle_checked (dispatch installed ev p) = true.
Proof.
  unfold dispatch, handle. intros Hr Hp. destruct installed.
  - destruct ev as [files|g|err| |b|title].
    + destruct files as [|f fs]; [exact Hp|].
      rewrite file_selector_onchange_cons. destruct (recognized (name f)); exact Hp.
    + rewrite onLoad_scene. exact Hp.
    + exact Hp.
    + unfold bind, gets. destruct (raf_callbacks p); exact Hp.
    + destruct b; [reflexivity | discriminate].
    + click_cases title p; cbn; try exact Hp; try reflexivity; congruence.
  - destruct ev as [files|g|err| |b|title]; try exact Hp.
    destruct b; [reflexivity | discriminate].
Qed.

(** X3. Once engaged, the interlock stays engaged through every event except
    unchecking the checkbox: no toolbar click, frame, selection or load result
    releases it.  This holds with the listeners installed and without. *)
Theorem only_checkbox_releases_interlock
    (installed : bool) (p : Page) (evs : list Event) :
  disabled p = true ->
  existsb releases evs = false ->
  disabled (run installed evs p) = true.
Proof.
  unfold disabled. intros Hp.
  induction evs as [|ev evs IH] using rev_ind; intros Hr; [exact Hp|].
  rewrite existsb_app in Hr. apply orb_false_iff in Hr. destruct Hr as [Hr1 Hr2].
  cbn in Hr2. rewrite orb_false_r in Hr2.
  rewrite run_snoc. apply dispatch_keeps_engaged; [exact Hr2 | apply IH, Hr1].
Qed.

Lemma only_checkbox_releases_interlock_witness :
  disabled (run true [ToolClicked (Some "Graphs / Analysis");
                      ToolClicked (Some "AI Tools");
                      ToolClicked None; ToggleFlipped true; AnimationFrame]
                page_engaged) = true /\
  disabled (run script_runs [ToolClicked (Some "Graphs / Analysis");
                             ToolClicked (Some "AI Tools");
                             ToolClicked None; ToggleFlipped true; AnimationFrame]
                page_engaged) = true.
Proof.
  split.
  - apply (only_checkbox_releases_interlock true page_engaged); reflexivity.
  - apply (only_checkbox_releases_interlock script_runs page_engaged); reflexivity.
Defined.

Lemma dispatch_status_class (installed : bool) (ev : Event) (p : Page) :
  In (statusDot_className p) status_classes ->
  In (statusDot_className (dispatch installed ev p)) status_classes.
Proof.
  unfold dispatch, handle. intros Hp. destruct installed.
  - destruct ev as [files|g|err| |b|title].
    + destruct files as [|f fs]; [exact Hp|].
      rewrite file_selector_onchange_cons. destruct (recognized (name f)); exact Hp.
    + rewrite onLoad_scene. exact Hp.
    + exact Hp.
    + unfold bind, gets. destruct (raf_callbacks p); exact Hp.
    + destruct b; cbn; tauto.
    + click_cases title p; cbn; try exact Hp; tauto.
  - destruct ev; exact Hp.
Qed.

(** X4. The status dot only ever carries one of the three classes
    "status-dot idle", "status-dot running", "status-dot error": if it does
    on a page, it does after any sequence of events, so the status tag read
    off the page is always one of idle, running, error.  This holds with the
    listeners installed and without. *)
Theorem status_tag_stays_in_closed_set
    (installed : bool) (p : Page) (evs : list Event) :
  In (statusDot_className p) status_classes ->
  In (statusDot_className (run installed evs p)) status_classes /\
  exists t, statusState (run installed evs p) = Some t.
Proof.
  intros Hp.
  assert (Hq : In (statusDot_className (run installed evs p)) status_classes).
  { induction evs as [|ev evs IH] using rev_ind; [exact Hp|].
    rewrite run_snoc. apply dispatch_status_class, IH. }
  split; [exact Hq | apply statusState_of_class, Hq].
Qed.

Lemma status_tag_stays_in_closed_set_witness :
  (exists t, statusState (run true [ToolClicked (Some "Human TEM Control");
                                    ToggleFlipped false;
                                    ToolClicked (Some "Automated TEM")] page0)
             = Some t) /\
  (exists t, statusState (run script_runs [ToolClicked (Some "Human TEM Control");
                                           ToggleFlipped false;
                                           ToolClicked (Some "Automated TEM")] page0)
             = Some t).
Proof.
  split.
  - apply (status_tag_stays_in_closed_set true page0). cbn. tauto.
  - apply (status_tag_stays_in_closed_set script_runs page0). cbn. tauto.
Defined.

(** X10. The checkbox and the toolbar never touch the viewer: after a toggle
    or a click, whatever its title, the scene, the registered blobs, the
    loader requests, the pending frame callbacks and the render count are as
    before.  This holds with the listeners installed and without. *)
Theorem toolbar_events_leave_viewer
    (installed : bool) (p : Page) (b : bool) (title : option string) :
  (let q := dispatch installed (ToggleFlipped b) p in
   scene_children q = scene_children p /\ blobs q = blobs p /\
   loader_requests q = loader_requests p /\
   raf_callbacks q = raf_callbacks p /\ renders q = renders p) /\
  (let q := dispatch installed (ToolClicked title) p in
   scene_children q = scene_children p /\ blobs q = blobs p /\
   loader_requests q = loader_requests p /\
   raf_callbacks q = raf_callbacks p /\ renders q = renders p).
Proof.
  cbn zeta. unfold dispatch, handle. destruct installed.
  - split.
    + destruct b; cbn; repeat split.
    + click_cases title p; cbn; repeat split.
  - cbn. repeat split.
Qed.

(** X11. The viewer never touches the toolbar: a selection, a load result or
    a frame leaves the interlock, the status dot, the status text and the mode
    indicator as they were and shows no notice.  This holds with the listeners
    installed and without. *)
Theorem viewer_events_leave_toolbar (installed : bool) (p : Page) (ev : Event) :
  is_viewer_event ev = true ->
  let q := dispatch installed ev p in
  aiToggle_checked q = aiToggle_checked p /\
  statusDot_className q = statusDot_className p /\
  statusText_textContent q = statusText_textContent p /\
  modeIndicator_textContent q = modeIndicator_textContent p /\
  alerts q = alerts p.
Proof.
  cbn zeta. unfold dispatch, handle. destruct installed.
  - destruct ev as [files|g|err| |b|title]; intros H; try discriminate.
    + destruct files as [|f fs]; [cbn; repeat split|].
      rewrite file_selector_onchange_cons.
      destruct (recognized (name f)); cbn; repeat split.
    + rewrite onLoad_scene. cbn. repeat split.
    + cbn. repeat split.
    + unfold bind, gets. destruct (raf_callbacks p); cbn; repeat split.
  - destruct ev; intros H; try discriminate; cbn; repeat split.
Qed.

Lemma viewer_events_leave_toolbar_witness :
  statusText_textContent (dispatch true (LoadSucceeded (mkGLTF (Some 3))) page_engaged)
    = "AI: DISABLED" /\
  aiToggle_checked (dispatch true (FileSelected [model_glb]) page_engaged) = true /\
  aiToggle_checked (dispatch script_runs (FileSelected [model_glb]) page_engaged) = true.
Proof.
  destruct (viewer_events_leave_toolbar true page_engaged
              (LoadSucceeded (mkGLTF (Some 3))) eq_refl) as [_ [_ [Ht _]]].
  destruct (viewer_events_leave_toolbar true page_engaged
              (FileSelected [model_glb]) eq_refl) as [Hc _].
  destruct (viewer_events_leave_toolbar script_runs page_engaged
              (FileSelected [model_glb]) eq_refl) as [Hs _].
  exact (conj Ht (conj Hc Hs)).
Defined.

(** X15. A click either switches the mode to one of the six mode names and
    logs that switch exactly once ("Switched to <mode>"), or leaves the mode
    indicator alone and logs at most one warning.  This holds with the
    listeners installed and without. *)
Theorem mode_switches_are_logged
    (installed : bool) (p : Page) (title : option string) :
  let q := dispatch installed (ToolClicked title) p in
  (exists m,
     modeIndicator_textContent q = "MODE: " ++ m /\
     console q = (console p ++ [mkEntry LOG [VStr ("Switched to " ++ m)]])%list /\
     In m mode_names) \/
  (modeIndicator_textContent q = modeIndicator_textContent p /\
   (console q = console p \/
    exists w, console q = (console p ++ [w])%list /\ level w = WARN)).
Proof.
  cbn zeta. unfold dispatch, handle. destruct installed.
  - click_cases title p; cbn;
      first [ left; eexists; split; [reflexivity | split; [reflexivity | cbn; tauto]]
            | right; split; [reflexivity | left; reflexivity]
            | right; split; [reflexivity | right; eexists; split; reflexivity] ].
  - right. split; [reflexivity | left; reflexivity].
Qed.

(** X18. Clicking the same button twice displays what clicking it once does:
    the interlock, the status dot, the status text and the mode indicator
    after the second click are those after the first.  This holds with the
    listeners installed and without. *)
Theorem click_is_idempotent_on_display
    (installed : bool) (p : Page) (title : option string) :
  display (dispatch installed (ToolClicked title)
             (dispatch installed (ToolClicked title) p))
    = display (dispatch installed (ToolClicked title) p).
Proof.
  destruct installed; [|reflexivity].
  unfold dispatch, handle, display, toolButton_onclick, bind, gets.
  repeat match goal with
         | |- context [case_ title ?l] => destruct (case_ title l)
         end;
    cbn; try reflexivity;
    destruct (aiToggle_checked p) eqn:E; cbn; rewrite ?E; cbn; rewrite ?E; reflexivity.
Qed.

(** ** The script as a whole *)


